(** * Requisition-form filler: the text classifier and its helpers

    A shallow embedding of [helpers.py] and [app.py].  Python strings are
    modelled as [string]; a character is a code point below 256 (Latin-1),
    the range on which [str.lower] acts character by character.  Python
    dictionaries are finite maps ([gmap]); exceptions are values of an
    error type. *)

From Stdlib Require Import ZArith Ascii String SpecFloat.
From stdpp Require Import gmap strings list fin_maps pretty.

Local Open Scope Z_scope.

(** ** Python's built-in string operations *)

Module PyStr.

Definition code (c : ascii) : N := N_of_ascii c.

(** [str.isspace] on one character: the white-space code points below 256. *)
Definition isspace (c : ascii) : bool :=
  let n := code c in
  ((9 <=? n) && (n <=? 13) || (28 <=? n) && (n <=? 32) || (n =? 133) || (n =? 160))%N.

(** The lowercase mapping: A-Z, and the Latin-1 capitals 192-222 but for
    the multiplication sign 215, move up by 32. *)
Definition lower_char (c : ascii) : ascii :=
  let n := code c in
  if ((65 <=? n) && (n <=? 90) || (192 <=? n) && (n <=? 222) && negb (n =? 215))%N
  then ascii_of_N (n + 32) else c.

Fixpoint lower (s : string) : string :=
  match s with
  | EmptyString => EmptyString
  | String c s' => String (lower_char c) (lower s')
  end.

(** Stripping, for a given notion of white space: [lstrip] drops the
    leading white space, [rstrip] the trailing one. *)
Fixpoint lstrip_with (sp : ascii -> bool) (s : string) : string :=
  match s with
  | EmptyString => EmptyString
  | String c s' => if sp c then lstrip_with sp s' else s
  end.

Fixpoint rstrip_with (sp : ascii -> bool) (s : string) : string :=
  match s with
  | EmptyString => EmptyString
  | String c s' =>
      match rstrip_with sp s' with
      | EmptyString => if sp c then EmptyString else String c EmptyString
      | r => String c r
      end
  end.

(** [s.strip()] with no argument. *)
Definition strip (s : string) : string :=
  rstrip_with isspace (lstrip_with isspace s).

(** [s.find(sub)]: the lowest index where [sub] starts, or -1. *)
Fixpoint find_from (sub s : string) (i : Z) : Z :=
  if String.prefix sub s then i
  else match s with
       | EmptyString => -1
       | String _ s' => find_from sub s' (i + 1)
       end.

Definition find (s sub : string) : Z := find_from sub s 0.

(** [sub in s]. *)
Definition contains (sub s : string) : Prop :=
  exists a b : string, s = a +:+ sub +:+ b.

(** [s.split(sep)] for a non-empty separator: the occurrences of [sep] are
    taken from the left and do not overlap.  [skip] counts the characters
    of a separator still to pass over, [cur] holds the current piece in
    reverse. *)
Fixpoint split_go (sep : string) (skip : nat) (cur : list ascii) (s : string)
  : list string :=
  match s with
  | EmptyString => [string_of_list_ascii (rev cur)]
  | String c s' =>
      match skip with
      | S k => split_go sep k cur s'
      | O =>
          if String.prefix sep s
          then string_of_list_ascii (rev cur)
                 :: split_go sep (String.length sep - 1)%nat [] s'
          else split_go sep 0 (c :: cur) s'
      end
  end.

Definition split (s sep : string) : list string := split_go sep 0 [] s.

(** [sep.join(l)]. *)
Fixpoint join (sep : string) (l : list string) : string :=
  match l with
  | [] => ""
  | [x] => x
  | x :: l' => x +:+ sep +:+ join sep l'
  end.

(** [str(n)] for an integer: its decimal digits, with a minus sign when
    negative. *)
Definition str (n : Z) : string := pretty n.

End PyStr.

(** ** Exceptions *)

Inductive exn : Type :=
| KeyError
| TypeError
| ValueError
| OverflowError
| AttributeError.

Inductive result (A : Type) : Type :=
| Ok (a : A)
| Raise (e : exn).
Arguments Ok {A} a.
Arguments Raise {A} e.

#[export] Instance result_bind : MBind result :=
  fun A B (k : A -> result B) (r : result A) =>
    match r with
    | Ok a => k a
    | Raise e => Raise e
    end.

(** ** helpers.py *)

Module Helpers.
Import PyStr.

(** *** getProvAbbrv *)

Definition getProvAbbrv (province : string) : string :=
  if (String.length province =? 2)%nat then province
  else if String.eqb province "Alberta" then "AB"
  else if String.eqb province "British Columbia" then "BC"
  else if String.eqb province "Manitoba" then "MB"
  else if String.eqb province "New Brunswick" then "NB"
  else if String.eqb province "Newfoundland and Labrador" then "NL"
  else if String.eqb province "Nova Scotia" then "NS"
  else if String.eqb province "Northwest Territories" then "NT"
  else if String.eqb province "Nunavut" then "NU"
  else if String.eqb province "Ontario" then "ON"
  else if String.eqb province "Prince Edward Island" then "PE"
  else if String.eqb province "Quebec" then "QC"
  else if String.eqb province "Saskatchewan" then "SK"
  else if String.eqb province "Yukon" then "YK"
  else "NA".

(** *** parseDoB *)

(** Values decoded from JSON: what a database field or a request field
    can hold. *)
#[warnings="-register-all"]
Inductive pyval : Type :=
| PNone
| PBool (b : bool)
| PInt (n : Z)
| PFloat (f : spec_float)
| PStr (s : string)
| PList (l : list pyval)
| PDict (l : list (string * pyval)).






Definition digit_val (c : ascii) : option Z :=
  let n := code c in
  if ((48 <=? n) && (n <=? 57))%N then Some (Z.of_N n - 48) else None.



















(** *** The field configuration *)

(** [text.find(word) >= 0] and [text.find(word) == -1] *)
Definition has (text word : string) : bool := find text word >=? 0.
Definition lacks (text word : string) : bool := find text word =? -1.

Section Classifier.
Context {K : Type} `{Countable K}.

(** One entry of [config["fields"]]: the widget identifier, and the
    value that selects the widget where the entry has one. *)
Record FieldSpec : Type := {
  field_xref : K;
  on_state : option string
}.

Record Config : Type := {
  cfg_fields : gmap string FieldSpec
}.

(** [config["fields"][name]] *)
Definition field (config : Config) (name : string) : result FieldSpec :=
  match cfg_fields config !! name with
  | Some spec => Ok spec
  | None => Raise KeyError
  end.

(** [config["fields"][name]["field_xref"]] *)
Definition xref_of (config : Config) (name : string) : result K :=
  spec ← field config name; Ok (field_xref spec).

(** [config["fields"][name]["on_state"]] *)
Definition on_state_of (config : Config) (name : string) : result string :=
  spec ← field config name;
  match on_state spec with
  | Some v => Ok v
  | None => Raise KeyError
  end.

(** [fields[config["fields"][kx]["field_xref"]] = config["fields"][kv]["on_state"]];
    the right-hand side is evaluated first. *)
Definition assign (config : Config) (kx kv : string) (fields : gmap K string)
  : result (gmap K string) :=
  v ← on_state_of config kv;
  k ← xref_of config kx;
  Ok (<[k := v]> fields).

Definition mark (config : Config) (name : string) (fields : gmap K string)
  : result (gmap K string) :=
  assign config name name fields.

(** [fields[config["fields"][kx]["field_xref"]] = basicInfo[config["fields"][kb]["field_xref"]]] *)
Definition copy_basic (config : Config) (basicInfo : gmap K string)
    (kx kb : string) (fields : gmap K string) : result (gmap K string) :=
  b ← xref_of config kb;
  v ← match basicInfo !! b with Some v => Ok v | None => Raise KeyError end;
  k ← xref_of config kx;
  Ok (<[k := v]> fields).

(** *** getFieldMatch

    [Ok None] is the function running off its end. *)
Definition getFieldMatch (text : string) (config : Config)
    (basicInfo : gmap K string) : result (option (gmap K string)) :=
  let text := strip (lower text) in
  let fields : gmap K string := ∅ in
  if has text "glucose" then
    fields ← mark config "glucose" fields;
    fields ← (if has text "random"
               then mark config "glucose_test_random" fields
               else if has text "fasting"
               then assign config "glucose_test_fasting" "glucose_test_random" fields
               else Ok fields);
    Ok (Some fields)
  else if has text "hba1c" then
    fields ← mark config "hba1c" fields;
    Ok (Some fields)
  else if has text "creatinine" && lacks text "albumin" then
    fields ← mark config "creatinine" fields;
    Ok (Some fields)
  else if has text "uric" then
    fields ← mark config "uric_acid" fields;
    Ok (Some fields)
  else if has text "sodium" then
    fields ← mark config "sodium" fields;
    Ok (Some fields)
  else if has text "potassium" then
    fields ← mark config "potassium" fields;
    Ok (Some fields)
  else if has text "alt" then
    fields ← mark config "alt" fields;
    Ok (Some fields)
  else if has text "phosphatase" then
    fields ← mark config "alk_phosphatase" fields;
    Ok (Some fields)
  else if has text "bilirubin" && lacks text "neonatal" then
    fields ← mark config "bilirubin" fields;
    Ok (Some fields)
  else if has text "albumin" && lacks text "creatinine" then
    fields ← mark config "albumin" fields;
    Ok (Some fields)
  else if has text "lipid assessment" then
    fields ← mark config "lipid_assessment" fields;
    Ok (Some fields)
  else if has text "albumin" && has text "creatinine"
          || has text "albumin" && has text "ratio"
          || has text "creatinine" && has text "ratio" then
    fields ← mark config "albumin_creatinine_ratio" fields;
    Ok (Some fields)
  else if has text "urinalysis" then
    fields ← mark config "urinalysis" fields;
    Ok (Some fields)
  else if has text "neonatal" then
    fields ← mark config "neonatal_bilirubin" fields;
    fields ← copy_basic config basicInfo "neonatal_doctor_phone" "doctor_phone" fields;
    fields ← copy_basic config basicInfo "neonatal_patient_phone" "patient_phone" fields;
    Ok (Some fields)
  else if has text "therapeutic" then
    fields ← mark config "therapeutic_drug" fields;
    Ok (Some fields)
  else if has text "cbc" then
    fields ← mark config "cbc" fields;
    Ok (Some fields)
  else if has text "prothrombin" then
    fields ← mark config "prothrombin_time" fields;
    Ok (Some fields)
  else if has text "pregnancy" then
    fields ← mark config "pregnancy_urine" fields;
    Ok (Some fields)
  else if has text "mononucleosis" then
    fields ← mark config "mononucleosis_screen" fields;
    Ok (Some fields)
  else if has text "rubella" then
    fields ← mark config "rubella" fields;
    Ok (Some fields)
  else if has text "prenatal" && has text "antibody"
          || has text "prenatal" && has text "screen"
          || has text "antibody" && has text "screen" then
    fields ← mark config "prenatal" fields;
    Ok (Some fields)
  else if has text "prenatal" && has text "repeat" then
    fields ← mark config "repeat_prenatal_antibodies" fields;
    Ok (Some fields)
  else if has text "cervical" then
    fields ← mark config "cervical" fields;
    Ok (Some fields)
  else if has text "vaginal" then
    if has text "rectal" || has text "group" || has text "strep" then
      fields ← mark config "vaginal_rectal" fields;
      Ok (Some fields)
    else
      fields ← mark config "vaginal" fields;
      Ok (Some fields)
  else if has text "rectal" then
    fields ← mark config "vaginal_rectal" fields;
    Ok (Some fields)
  else if has text "chlamydia" then
    fields ← mark config "chlamydia" fields;
    Ok (Some fields)
  else if has text "gc" then
    fields ← mark config "gc" fields;
    Ok (Some fields)
  else if has text "sputum" then
    fields ← mark config "sputum" fields;
    Ok (Some fields)
  else if has text "throat" then
    fields ← mark config "throat" fields;
    Ok (Some fields)
  else if has text "wound" then
    fields ← mark config "wound" fields;
    let specificWound :=
      fold_left (fun specificWound word => specificWound +:+ strip word +:+ " ")
                (split text "wound") "" in
    k ← xref_of config "specify_wound";
    let fields := <[k := specificWound]> fields in
    Ok (Some fields)
  else if has text "urine" && lacks text "albumin" && lacks text "creatinine"
          && lacks text "ratio" && lacks text "pregnancy" then
    fields ← mark config "urine" fields;
    Ok (Some fields)
  else if has text "culture" then
    fields ← mark config "stool_culture" fields;
    Ok (Some fields)
  else if has text "stool" && has text "ova" || has text "stool" && has text "parasites" then
    fields ← mark config "stool_ova_parasites" fields;
    Ok (Some fields)
  else if has text "swabs" then
    fields ← mark config "other_swabs" fields;
    Ok (Some fields)
  else if has text "acute" then
    fields ← mark config "viral_hep_acute" fields;
    Ok (Some fields)
  else if has text "chronic" then
    fields ← mark config "viral_hep_chronic" fields;
    Ok (Some fields)
  else if has text "status" || has text "exposure" then
    fields ← mark config "viral_hep_immune" fields;
    fields ← (if has text "hepatitis a"
               then mark config "viral_hep_immune_a" fields
               else if has text "hepatitis b"
               then mark config "viral_hep_immune_b" fields
               else if has text "hepatitis c"
               then mark config "viral_hep_immune_c" fields
               else Ok fields);
    Ok (Some fields)
  else if has text "total" then
    fields ← mark config "total_psa" fields;
    Ok (Some fields)
  else if has text "free" then
    fields ← mark config "free_psa" fields;
    Ok (Some fields)
  else if has text "vitamin" || has text "hydroxy" then
    fields ← (if has text "insured"
               then mark config "insured_vitd" fields
               else if has text "uninsured"
               then mark config "uninsured_vitd" fields
               else Ok fields);
    Ok (Some fields)
  else Ok None.

End Classifier.
Arguments FieldSpec K : clear implicits.
Arguments Config K : clear implicits.

(** *** The rule chain, rule by rule

    The arms of the if/elif chain of [getFieldMatch], named in source
    order, with the condition of each. *)

Inductive rule : Type :=
| Glucose
| Hba1c
| Creatinine
| UricAcid
| Sodium
| Potassium
| Alt
| AlkPhosphatase
| Bilirubin
| Albumin
| LipidAssessment
| AlbuminCreatinineRatio
| Urinalysis
| NeonatalBilirubin
| TherapeuticDrug
| Cbc
| ProthrombinTime
| PregnancyUrine
| Mononucleosis
| Rubella
| Prenatal
| RepeatPrenatal
| Cervical
| Vaginal
| Rectal
| Chlamydia
| Gc
| Sputum
| Throat
| Wound
| Urine
| StoolCulture
| StoolOvaParasites
| OtherSwabs
| HepAcute
| HepChronic
| HepImmune
| TotalPsa
| FreePsa
| VitaminD.

#[export] Instance rule_eq_dec : EqDecision rule.
Proof. solve_decision. Defined.

Definition guard (r : rule) (text : string) : bool :=
  match r with
  | Glucose =>
      has text "glucose"
  | Hba1c =>
      has text "hba1c"
  | Creatinine =>
      has text "creatinine" && lacks text "albumin"
  | UricAcid =>
      has text "uric"
  | Sodium =>
      has text "sodium"
  | Potassium =>
      has text "potassium"
  | Alt =>
      has text "alt"
  | AlkPhosphatase =>
      has text "phosphatase"
  | Bilirubin =>
      has text "bilirubin" && lacks text "neonatal"
  | Albumin =>
      has text "albumin" && lacks text "creatinine"
  | LipidAssessment =>
      has text "lipid assessment"
  | AlbuminCreatinineRatio =>
      has text "albumin" && has text "creatinine"
      || has text "albumin" && has text "ratio"
      || has text "creatinine" && has text "ratio"
  | Urinalysis =>
      has text "urinalysis"
  | NeonatalBilirubin =>
      has text "neonatal"
  | TherapeuticDrug =>
      has text "therapeutic"
  | Cbc =>
      has text "cbc"
  | ProthrombinTime =>
      has text "prothrombin"
  | PregnancyUrine =>
      has text "pregnancy"
  | Mononucleosis =>
      has text "mononucleosis"
  | Rubella =>
      has text "rubella"
  | Prenatal =>
      has text "prenatal" && has text "antibody"
      || has text "prenatal" && has text "screen"
      || has text "antibody" && has text "screen"
  | RepeatPrenatal =>
      has text "prenatal" && has text "repeat"
  | Cervical =>
      has text "cervical"
  | Vaginal =>
      has text "vaginal"
  | Rectal =>
      has text "rectal"
  | Chlamydia =>
      has text "chlamydia"
  | Gc =>
      has text "gc"
  | Sputum =>
      has text "sputum"
  | Throat =>
      has text "throat"
  | Wound =>
      has text "wound"
  | Urine =>
      has text "urine" && lacks text "albumin" && lacks text "creatinine"
      && lacks text "ratio" && lacks text "pregnancy"
  | StoolCulture =>
      has text "culture"
  | StoolOvaParasites =>
      has text "stool" && has text "ova" || has text "stool" && has text "parasites"
  | OtherSwabs =>
      has text "swabs"
  | HepAcute =>
      has text "acute"
  | HepChronic =>
      has text "chronic"
  | HepImmune =>
      has text "status" || has text "exposure"
  | TotalPsa =>
      has text "total"
  | FreePsa =>
      has text "free"
  | VitaminD =>
      has text "vitamin" || has text "hydroxy"
  end.

Definition chain : list rule :=
  [Glucose; Hba1c; Creatinine; UricAcid; Sodium;
   Potassium; Alt; AlkPhosphatase; Bilirubin; Albumin;
   LipidAssessment; AlbuminCreatinineRatio; Urinalysis; NeonatalBilirubin; TherapeuticDrug;
   Cbc; ProthrombinTime; PregnancyUrine; Mononucleosis; Rubella;
   Prenatal; RepeatPrenatal; Cervical; Vaginal; Rectal;
   Chlamydia; Gc; Sputum; Throat; Wound;
   Urine; StoolCulture; StoolOvaParasites; OtherSwabs; HepAcute;
   HepChronic; HepImmune; TotalPsa; FreePsa; VitaminD].

(** The arm an if/elif chain runs: the first whose condition holds. *)
Definition fired (text : string) : option rule :=
  List.find (fun r => guard r text) chain.

(** The arms tested before [r]. *)
Fixpoint upto (r : rule) (l : list rule) : list rule :=
  match l with
  | [] => []
  | x :: l' => if bool_decide (x = r) then [] else x :: upto r l'
  end.

Definition before (r : rule) : list rule := upto r chain.

(** The form of the line that is matched. *)
Definition normalize (text : string) : string := strip (lower text).


Section Arms.
Context {K : Type} `{Countable K}.

(** The arms that mark one field and return. *)
Definition single_field (r : rule) : option string :=
  match r with
  | Hba1c => Some "hba1c"
  | Creatinine => Some "creatinine"
  | UricAcid => Some "uric_acid"
  | Sodium => Some "sodium"
  | Potassium => Some "potassium"
  | Alt => Some "alt"
  | AlkPhosphatase => Some "alk_phosphatase"
  | Bilirubin => Some "bilirubin"
  | Albumin => Some "albumin"
  | LipidAssessment => Some "lipid_assessment"
  | AlbuminCreatinineRatio => Some "albumin_creatinine_ratio"
  | Urinalysis => Some "urinalysis"
  | TherapeuticDrug => Some "therapeutic_drug"
  | Cbc => Some "cbc"
  | ProthrombinTime => Some "prothrombin_time"
  | PregnancyUrine => Some "pregnancy_urine"
  | Mononucleosis => Some "mononucleosis_screen"
  | Rubella => Some "rubella"
  | Prenatal => Some "prenatal"
  | RepeatPrenatal => Some "repeat_prenatal_antibodies"
  | Cervical => Some "cervical"
  | Rectal => Some "vaginal_rectal"
  | Chlamydia => Some "chlamydia"
  | Gc => Some "gc"
  | Sputum => Some "sputum"
  | Throat => Some "throat"
  | Urine => Some "urine"
  | StoolCulture => Some "stool_culture"
  | StoolOvaParasites => Some "stool_ova_parasites"
  | OtherSwabs => Some "other_swabs"
  | HepAcute => Some "viral_hep_acute"
  | HepChronic => Some "viral_hep_chronic"
  | TotalPsa => Some "total_psa"
  | FreePsa => Some "free_psa"
  | _ => None
  end.

(** The value written to the specify-wound field. *)
Definition specific_wound (text : string) : string :=
  fold_left (fun specificWound word => specificWound +:+ strip word +:+ " ")
            (split text "wound") "".

(** What each arm returns, on the normalized text. *)
Definition emit (r : rule) (text : string) (config : Config K)
    (basicInfo : gmap K string) : result (gmap K string) :=
  match r with
  | Glucose =>
      fields ← mark config "glucose" ∅;
      if has text "random" then mark config "glucose_test_random" fields
      else if has text "fasting"
      then assign config "glucose_test_fasting" "glucose_test_random" fields
      else Ok fields
  | NeonatalBilirubin =>
      fields ← mark config "neonatal_bilirubin" ∅;
      fields ← copy_basic config basicInfo "neonatal_doctor_phone" "doctor_phone" fields;
      copy_basic config basicInfo "neonatal_patient_phone" "patient_phone" fields
  | Vaginal =>
      if has text "rectal" || has text "group" || has text "strep"
      then mark config "vaginal_rectal" ∅
      else mark config "vaginal" ∅
  | Wound =>
      fields ← mark config "wound" ∅;
      k ← xref_of config "specify_wound";
      Ok (<[k := specific_wound text]> fields)
  | HepImmune =>
      fields ← mark config "viral_hep_immune" ∅;
      if has text "hepatitis a" then mark config "viral_hep_immune_a" fields
      else if has text "hepatitis b" then mark config "viral_hep_immune_b" fields
      else if has text "hepatitis c" then mark config "viral_hep_immune_c" fields
      else Ok fields
  | VitaminD =>
      if has text "insured" then mark config "insured_vitd" ∅
      else if has text "uninsured" then mark config "uninsured_vitd" ∅
      else Ok ∅
  | _ =>
      match single_field r with
      | Some name => mark config name ∅
      | None => Ok ∅
      end
  end.
End Arms.


(** *** What the helpers are measured against *)

(** The two-letter codes that Canada Post assigns to the thirteen provinces
    and territories: the standard codes. *)
Definition standard_code (province : string) : option string :=
  if String.eqb province "Alberta" then Some "AB"
  else if String.eqb province "British Columbia" then Some "BC"
  else if String.eqb province "Manitoba" then Some "MB"
  else if String.eqb province "New Brunswick" then Some "NB"
  else if String.eqb province "Newfoundland and Labrador" then Some "NL"
  else if String.eqb province "Nova Scotia" then Some "NS"
  else if String.eqb province "Northwest Territories" then Some "NT"
  else if String.eqb province "Nunavut" then Some "NU"
  else if String.eqb province "Ontario" then Some "ON"
  else if String.eqb province "Prince Edward Island" then Some "PE"
  else if String.eqb province "Quebec" then Some "QC"
  else if String.eqb province "Saskatchewan" then Some "SK"
  else if String.eqb province "Yukon" then Some "YT"
  else None.






End Helpers.


(** ** app.py *)

Module App.
Import PyStr Helpers.

Definition MAX_OTHER_TESTS : Z := 11.

(** *** int()

    The white space [int] accepts around a literal. *)
Definition int_space (c : ascii) : bool :=
  let n := code c in
  ((9 <=? n) && (n <=? 13) || (n =? 32) || (n =? 133) || (n =? 160))%N.

(** Decimal digits, with single underscores allowed between digits. *)
Fixpoint int_digits (s : string) (acc : Z) (after_digit : bool) : option Z :=
  match s with
  | EmptyString => if after_digit then Some acc else None
  | String c s' =>
      match digit_val c with
      | Some d => int_digits s' (10 * acc + d) true
      | None =>
          if Ascii.eqb c "_" && after_digit then int_digits s' acc false
          else None
      end
  end.

Definition int_of_str (s : string) : result Z :=
  let s := rstrip_with int_space (lstrip_with int_space s) in
  let '(negative, digits) :=
    match s with
    | String "-" r => (true, r)
    | String "+" r => (false, r)
    | _ => (false, s)
    end in
  match int_digits digits 0 false with
  | Some n => Ok (if negative then - n else n)
  | None => Raise ValueError
  end.

(** Truncation of a float towards zero. *)
Definition int_of_float (f : spec_float) : result Z :=
  match f with
  | S754_zero _ => Ok 0
  | S754_infinity _ => Raise OverflowError
  | S754_nan => Raise ValueError
  | S754_finite negative m e =>
      let magnitude :=
        if 0 <=? e then Z.pos m * 2 ^ e else Z.pos m / 2 ^ (- e) in
      Ok (if negative then - magnitude else magnitude)
  end.

Definition py_int (v : pyval) : result Z :=
  match v with
  | PNone => Raise TypeError
  | PBool b => Ok (if b then 1 else 0)
  | PInt n => Ok n
  | PFloat f => int_of_float f
  | PStr s => int_of_str s
  | PList _ => Raise TypeError
  | PDict _ => Raise TypeError
  end.

Section Endpoint.
Context {K : Type} `{Countable K}.

(** The state loaded when the application starts. *)
Variable FIELD_CONFIG : Config K.
Variable valid_patients : list Z.
Variable valid_doctors : list Z.

(** The collaborators: [getBasicInfo] fetches the tables and returns
    the basic-information dictionary, [fillPDF] writes the form and
    returns its path.  Their failure returns are not modelled. *)
Variable getBasicInfo : Z -> Z -> gmap K string.
Variable fillPDF : gmap K string -> string.

(** A dictionary or [None] is true when it is a non-empty dictionary. *)
Definition truthy (entry : option (gmap K string)) : bool :=
  match entry with
  | Some e => negb (bool_decide (e = ∅))
  | None => false
  end.

(** The body of the loop over the lines; a line that is not a string
    has no [lower]. *)
Definition classify_line (basic_info : gmap K string)
    (state : gmap K string * Z) (line : pyval) : result (gmap K string * Z) :=
  let '(entries, count) := state in
  match line with
  | PStr text =>
      entry ← getFieldMatch text FIELD_CONFIG basic_info;
      if truthy entry then
        Ok (default ∅ entry ∪ entries, count)
      else if count <? MAX_OTHER_TESTS then
        let count := count + 1 in
        k ← xref_of FIELD_CONFIG ("other_tests" +:+ str count);
        Ok (<[k := text]> entries, count)
      else Ok (entries, count)
  | _ => Raise AttributeError
  end.

Fixpoint classify_lines (basic_info : gmap K string)
    (state : gmap K string * Z) (inputs : list pyval)
  : result (gmap K string * Z) :=
  match inputs with
  | [] => Ok state
  | line :: rest =>
      state ← classify_line basic_info state line;
      classify_lines basic_info state rest
  end.

Inductive response : Type :=
| JsonMessage (message : string) (status : Z)
| SendFile (path : string)
| Unhandled (e : exn).

(** The remote fetches and the file operations of a request. *)
Inductive event : Type :=
| FetchTables (doctor_id patient_id : Z)
| WriteForm (field_data : gmap K string).

Definition id_errors (patient_id doctor_id : Z) : list string :=
  (if bool_decide (patient_id ∈ valid_patients) then []
   else ["Invalid patient ID: " +:+ str patient_id])
  ++ (if bool_decide (doctor_id ∈ valid_doctors) then []
      else ["Invalid doctor ID: " +:+ str doctor_id]).

(** What the handler does once the ids are integers. *)
Definition handle (inputs : pyval) (patient_id doctor_id : Z)
  : response * list event :=
  let errors := id_errors patient_id doctor_id in
  if negb (bool_decide (errors = [])) then
    (JsonMessage (join "; " errors) 400, [])
  else
    match inputs with
    | PList inputs =>
        let basic_info := getBasicInfo doctor_id patient_id in
        match classify_lines basic_info (∅, 0) inputs with
        | Raise e => (Unhandled e, [FetchTables doctor_id patient_id])
        | Ok (entries, _) =>
            let field_data := entries ∪ basic_info in
            (SendFile (fillPDF field_data),
             [FetchTables doctor_id patient_id; WriteForm field_data])
        end
    | _ => (JsonMessage "Error: Expected a list of inputs" 400, [])
    end.

(** [receive_text], on the decoded body of the request. *)
Definition receive_text (data : gmap string pyval) : response * list event :=
  let inputs := default (PList []) (data !! "inputs") in
  let patient_id := default PNone (data !! "patient_id") in
  let doctor_id := default PNone (data !! "doctor_id") in
  let ids := (p ← py_int patient_id; d ← py_int doctor_id; Ok (p, d)) in
  match ids with
  | Raise ValueError | Raise TypeError =>
      (JsonMessage "Error: Patient ID and Doctor ID must be integers" 400, [])
  | Raise e => (Unhandled e, [])
  | Ok (patient_id, doctor_id) => handle inputs patient_id doctor_id
  end.

End Endpoint.
(** *** The overflow slots, as the loop is meant to fill them *)

Section Slots.
Context {K : Type} `{Countable K}.
Variable config : Config K.
Variable basic_info : gmap K string.

(** A line is unclassified when [getFieldMatch] returns [None] or an
    empty dictionary for it. *)
Definition unclassified (text : string) : bool :=
  match getFieldMatch text config basic_info with
  | Ok entry => negb (truthy entry)
  | Raise _ => false
  end.

(** The assignments of the classified lines, later lines over earlier. *)
Fixpoint classified_writes (texts : list string) : gmap K string :=
  match texts with
  | [] => ∅
  | text :: rest =>
      classified_writes rest
      ∪ match getFieldMatch text config basic_info with
        | Ok entry => if truthy entry then default ∅ entry else ∅
        | Raise _ => ∅
        end
  end.

(** [slot n] stands for the widget of [other_tests<n>].  With [count]
    slots taken, the unclassified lines go to the next slots, in
    order, until the eleventh is filled. *)
Variable slot : Z -> K.

Fixpoint slot_writes (count : Z) (lines : list string) : gmap K string :=
  match lines with
  | [] => ∅
  | line :: rest =>
      if count <? MAX_OTHER_TESTS
      then <[slot (count + 1) := line]> (slot_writes (count + 1) rest)
      else ∅
  end.

(** The classifier accepts the line, and writes to no overflow slot. *)
Definition well_classified (text : string) : Prop :=
  exists entry, getFieldMatch text config basic_info = Ok entry
    /\ forall n, 1 <= n <= 11 -> default ∅ entry !! slot n = None.
End Slots.
End App.

(** ** A sample configuration

    The configuration file is not part of the sources.  This one gives
    every field the classifier names a widget of its own: the check boxes
    are selected by "Yes", but for the two glucose sub-fields, which are
    selected by "Random" and "Fasting"; the text fields have no
    [on_state]. *)

Module Demo.
Import PyStr Helpers.

Definition check_boxes : list string :=
    ["glucose"; "glucose_test_random"; "glucose_test_fasting";
     "hba1c"; "creatinine"; "uric_acid";
     "sodium"; "potassium"; "alt";
     "alk_phosphatase"; "bilirubin"; "albumin";
     "lipid_assessment"; "albumin_creatinine_ratio"; "urinalysis";
     "neonatal_bilirubin"; "therapeutic_drug"; "cbc";
     "prothrombin_time"; "pregnancy_urine"; "mononucleosis_screen";
     "rubella"; "prenatal"; "repeat_prenatal_antibodies";
     "cervical"; "vaginal_rectal"; "vaginal";
     "chlamydia"; "gc"; "sputum";
     "throat"; "wound"; "urine";
     "stool_culture"; "stool_ova_parasites"; "other_swabs";
     "viral_hep_acute"; "viral_hep_chronic"; "viral_hep_immune";
     "viral_hep_immune_a"; "viral_hep_immune_b"; "viral_hep_immune_c";
     "total_psa"; "free_psa"; "insured_vitd";
     "uninsured_vitd"].

Definition text_fields : list string :=
    ["neonatal_doctor_phone"; "doctor_phone"; "neonatal_patient_phone";
     "patient_phone"; "specify_wound"]
    ++ map (fun n => "other_tests" +:+ str n) (seqZ 1 11).

Definition state_of (name : string) : string :=
  if String.eqb name "glucose_test_random" then "Random"
  else if String.eqb name "glucose_test_fasting" then "Fasting"
  else "Yes".

(** Widget identifiers are numbered from 101 in the order above. *)
Definition config : Config Z :=
  {| cfg_fields :=
       list_to_map
         (imap (fun i name =>
                  (name, {| field_xref := 101 + Z.of_nat i;
                            on_state := Some (state_of name) |}))
               check_boxes
          ++ imap (fun i name =>
                     (name, {| field_xref := 201 + Z.of_nat i;
                               on_state := None |}))
                  text_fields) |}.

Definition xref (name : string) : Z :=
  match cfg_fields config !! name with
  | Some spec => field_xref spec
  | None => 0
  end.

Definition basic_info : gmap Z string :=
  {[ xref "doctor_phone" := "613-555-0100";
     xref "patient_phone" := "613-555-0199" ]}.

(** Twelve lines that no arm of the classifier takes, and one that the
    CBC arm takes. *)
Definition lines : list string :=
  ["Ferritin"; "TSH"; "iron"; "magnesium"; "calcium"; "zinc"; "CBC";
   "folate"; "amylase"; "lipase"; "CRP"; "ESR"; "troponin"].

End Demo.

(** * Properties *)

Import PyStr Helpers App.

(** ** Searching a string *)

Lemma append_cons c a s : String c a +:+ s = String c (a +:+ s).
Proof. reflexivity. Qed.

Lemma prefix_append p s : String.prefix p s = true <-> exists r, s = p +:+ r.
Proof.
  revert s. induction p as [|a p IH]; intros s.
  - split; [intros _; exists s; reflexivity | intros _; destruct s; reflexivity].
  - destruct s as [|b s]; simpl.
    + split; [discriminate | intros [r Hr]; discriminate].
    + destruct (ascii_dec a b) as [->|Hne].
      * rewrite IH. split; intros [r Hr]; exists r.
        -- rewrite append_cons. congruence.
        -- rewrite append_cons in Hr. congruence.
      * split; [discriminate | intros [r Hr]; rewrite append_cons in Hr; congruence].
Qed.

Lemma find_from_range sub s i : find_from sub s i = -1 \/ i <= find_from sub s i.
Proof.
  revert i. induction s as [|c s IH]; intros i; cbn [find_from].
  - destruct (String.prefix sub ""); [right; lia | left; reflexivity].
  - destruct (String.prefix sub (String c s)); [right; lia|].
    destruct (IH (i + 1)) as [->|Hle]; [left; reflexivity | right; lia].
Qed.

Lemma contains_cons sub c s :
  contains sub (String c s) <-> String.prefix sub (String c s) = true \/ contains sub s.
Proof.
  split.
  - intros (a & b & Hs). destruct a as [|x a].
    + left. apply prefix_append. exists b. exact Hs.
    + right. rewrite append_cons in Hs. exists a, b. congruence.
  - intros [Hp | (a & b & ->)].
    + apply prefix_append in Hp as [r Hr]. exists "", r. exact Hr.
    + exists (String c a), b. reflexivity.
Qed.

Lemma find_from_contains sub s i : 0 <= i -> (0 <= find_from sub s i <-> contains sub s).
Proof.
  revert i. induction s as [|c s IH]; intros i Hi.
  - cbn [find_from]. destruct (String.prefix sub "") eqn:Hp.
    + split; [intros _ | lia]. apply prefix_append in Hp as [r Hr]. exists "", r. exact Hr.
    + split; [lia|]. intros (a & b & Hs). exfalso.
      destruct a; [|discriminate]. destruct sub; [discriminate Hp | discriminate Hs].
  - rewrite contains_cons. cbn [find_from].
    destruct (String.prefix sub (String c s)) eqn:Hp.
    + split; [auto | lia].
    + rewrite IH by lia. split; [auto | intros [?|?]; [discriminate | assumption]].
Qed.

Lemma has_contains text word : has text word = true <-> contains word text.
Proof.
  unfold has, find. rewrite Z.geb_le. apply find_from_contains. lia.
Qed.

Lemma lacks_negb_has text word : lacks text word = negb (has text word).
Proof.
  unfold lacks, has, find.
  destruct (find_from_range word text 0) as [->|Hle]; [reflexivity|].
  destruct (Z.eqb_spec (find_from word text 0) (-1)); [lia|].
  symmetry. apply negb_false_iff, Z.geb_le. lia.
Qed.

Lemma lacks_contains text word : lacks text word = true <-> ~ contains word text.
Proof.
  rewrite lacks_negb_has, negb_true_iff, <- has_contains.
  destruct (has text word); split; congruence.
Qed.

(** ** Lowercasing and stripping *)

Lemma isspace_lower_char c : isspace (lower_char c) = isspace c.
Proof. destruct c as [[] [] [] [] [] [] [] []]; reflexivity. Qed.

Lemma lower_char_idemp c : lower_char (lower_char c) = lower_char c.
Proof. destruct c as [[] [] [] [] [] [] [] []]; reflexivity. Qed.

Lemma lower_idemp s : lower (lower s) = lower s.
Proof. induction s as [|c s IH]; simpl; [reflexivity|]. by rewrite lower_char_idemp, IH. Qed.

Lemma lower_lstrip s : lower (lstrip_with isspace s) = lstrip_with isspace (lower s).
Proof.
  induction s as [|c s IH]; simpl; [reflexivity|].
  rewrite isspace_lower_char. destruct (isspace c); [exact IH | reflexivity].
Qed.

Lemma lower_rstrip s : lower (rstrip_with isspace s) = rstrip_with isspace (lower s).
Proof.
  induction s as [|c s IH]; simpl; [reflexivity|].
  rewrite <- IH, isspace_lower_char.
  destruct (rstrip_with isspace s); simpl; [destruct (isspace c)|]; reflexivity.
Qed.

Lemma lower_strip s : lower (strip s) = strip (lower s).
Proof. unfold strip. by rewrite lower_rstrip, lower_lstrip. Qed.

Section Strip.
Variable sp : ascii -> bool.

Lemma rstrip_idemp s : rstrip_with sp (rstrip_with sp s) = rstrip_with sp s.
Proof.
  induction s as [|c s IH]; simpl; [reflexivity|].
  destruct (rstrip_with sp s) as [|d r] eqn:Hr.
  - destruct (sp c) eqn:Hc; simpl; [reflexivity | by rewrite Hc].
  - cbn [rstrip_with]. cbn [rstrip_with] in IH. by rewrite IH.
Qed.

Lemma lstrip_head s :
  lstrip_with sp s = "" \/ exists c r, lstrip_with sp s = String c r /\ sp c = false.
Proof.
  induction s as [|c s IH]; simpl; [by left|].
  destruct (sp c) eqn:Hc; [exact IH | right; eauto].
Qed.

Lemma rstrip_head c r :
  sp c = false -> exists r', rstrip_with sp (String c r) = String c r'.
Proof.
  intros Hc. simpl. destruct (rstrip_with sp r); [rewrite Hc|]; eauto.
Qed.

Lemma lstrip_rstrip_lstrip s :
  lstrip_with sp (rstrip_with sp (lstrip_with sp s)) = rstrip_with sp (lstrip_with sp s).
Proof.
  destruct (lstrip_head s) as [->|(c & r & -> & Hc)]; [reflexivity|].
  destruct (rstrip_head c r Hc) as [r' ->]. simpl. by rewrite Hc.
Qed.
End Strip.

Lemma strip_idemp s : strip (strip s) = strip s.
Proof. unfold strip. by rewrite lstrip_rstrip_lstrip, rstrip_idemp. Qed.

Lemma normalize_idemp s : normalize (normalize s) = normalize s.
Proof. unfold normalize. by rewrite lower_strip, lower_idemp, strip_idemp. Qed.

(** ** The chain and its arms *)

Section ChainFacts.
Context {K : Type} `{Countable K}.
Implicit Types (config : Config K) (basicInfo : gmap K string).

(** The if/elif chain runs the arm that [fired] names. *)
Lemma getFieldMatch_fired text config basicInfo :
  getFieldMatch text config basicInfo =
  match fired (normalize text) with
  | Some r => m ← emit r (normalize text) config basicInfo; Ok (Some m)
  | None => Ok None
  end.
Proof.
  unfold getFieldMatch, fired, chain, normalize.
  generalize (strip (lower text)). intros t.
  cbn [List.find guard].
  repeat lazymatch goal with
  | |- (if ?g then _ else _) = match (if ?g then _ else _) with _ => _ end =>
      destruct g; [cbn [emit single_field]|]
  end; try reflexivity.
  all: unfold mbind, result_bind, specific_wound; repeat case_match; congruence.
Qed.
End ChainFacts.

(** ** Which arm runs *)

Lemma find_Some_upto (f : rule -> bool) (l : list rule) (r : rule) :
  r ∈ l ->
  (List.find f l = Some r <-> f r = true /\ Forall (fun r' => f r' = false) (upto r l)).
Proof.
  induction l as [|x l IH]; intros Hin; [by apply elem_of_nil in Hin|].
  cbn [List.find upto]. destruct (decide (x = r)) as [->|Hne].
  - rewrite bool_decide_eq_true_2 by done.
    destruct (f r) eqn:Hr.
    + split; [intros _; split; [done | constructor] | done].
    + split; [|intros [? _]; done].
      intros Hf. apply find_some in Hf as [_ Hf]. congruence.
  - rewrite bool_decide_eq_false_2 by done.
    apply elem_of_cons in Hin as [?|Hin]; [congruence|].
    rewrite Forall_cons. destruct (f x) eqn:Hx.
    + split; [congruence | intros (_ & ? & _); congruence].
    + rewrite (IH Hin). tauto.
Qed.

Lemma rule_in_chain r : r ∈ chain.
Proof. destruct r; unfold chain; set_solver. Qed.

Lemma fired_iff text r :
  fired text = Some r <->
  guard r text = true /\ Forall (fun r' => guard r' text = false) (before r).
Proof. apply (find_Some_upto (fun r => guard r text)), rule_in_chain. Qed.

Section ArmFacts.
Context {K : Type} `{Countable K}.
Implicit Types (config : Config K) (basicInfo fields : gmap K string)
  (spec : FieldSpec K).

Lemma fired_emit line config basicInfo r :
  fired (normalize line) = Some r ->
  getFieldMatch line config basicInfo =
  (m ← emit r (normalize line) config basicInfo; Ok (Some m)).
Proof. intros Hr. by rewrite getFieldMatch_fired, Hr. Qed.

Lemma xref_of_ok config name spec :
  cfg_fields config !! name = Some spec ->
  xref_of config name = Ok (field_xref spec).
Proof. intros Hs. unfold xref_of, field. by rewrite Hs. Qed.

Lemma assign_ok config kx kv sx sv v fields :
  cfg_fields config !! kx = Some sx ->
  cfg_fields config !! kv = Some sv ->
  on_state sv = Some v ->
  assign config kx kv fields = Ok (<[field_xref sx := v]> fields).
Proof.
  intros Hx Hv Hon. unfold assign, on_state_of, xref_of, field.
  rewrite Hx, Hv. cbn. rewrite Hon. reflexivity.
Qed.

Lemma mark_ok config name spec v fields :
  cfg_fields config !! name = Some spec ->
  on_state spec = Some v ->
  mark config name fields = Ok (<[field_xref spec := v]> fields).
Proof. intros. by apply assign_ok with (sv := spec). Qed.
End ArmFacts.

(** ** Case and surrounding white space *)

(** C8: classifying a line gives the same result as classifying its
    lowercased, stripped form. *)
Theorem getFieldMatch_case_space_invariant
    {K : Type} `{Countable K} (t : string) (config : Config K)
    (basicInfo : gmap K string) :
  getFieldMatch t config basicInfo
  = getFieldMatch (strip (lower t)) config basicInfo.
Proof.
  rewrite !getFieldMatch_fired. fold (normalize t).
  by rewrite normalize_idemp.
Qed.

(** ** The albumin/creatinine-ratio arm *)




(** ** Glucose and its sub-fields *)

Section Glucose.
Context {K : Type} `{Countable K}.

(** What the glucose arm returns.  The fasting sub-field receives the
    [on_state] of the random sub-field. *)
Lemma glucose_arm (line : string) (config : Config K)
    (basicInfo : gmap K string) (glucose random fasting : FieldSpec K)
    (vg vr : string) :
  cfg_fields config !! "glucose" = Some glucose ->
  cfg_fields config !! "glucose_test_random" = Some random ->
  cfg_fields config !! "glucose_test_fasting" = Some fasting ->
  on_state glucose = Some vg ->
  on_state random = Some vr ->
  contains "glucose" (normalize line) ->
  getFieldMatch line config basicInfo =
  Ok (Some (if has (normalize line) "random"
            then <[field_xref random := vr]> {[ field_xref glucose := vg ]}
            else if has (normalize line) "fasting"
            then <[field_xref fasting := vr]> {[ field_xref glucose := vg ]}
            else {[ field_xref glucose := vg ]})).
Proof.
  intros Hg Hr Hf Hvg Hvr Hhas.
  assert (Hfired : fired (normalize line) = Some Glucose).
  { unfold fired, chain. cbn [List.find guard].
    by rewrite (proj2 (has_contains _ _) Hhas). }
  rewrite (fired_emit _ _ _ _ Hfired). cbn [emit].
  rewrite (mark_ok _ _ _ _ _ Hg Hvg). cbn.
  destruct (has (normalize line) "random").
  - by rewrite (mark_ok _ _ _ _ _ Hr Hvr).
  - destruct (has (normalize line) "fasting"); [|done].
    by rewrite (assign_ok _ _ _ _ _ _ _ Hf Hr Hvr).
Qed.
End Glucose.

(** C2: on "fasting glucose", with a configuration whose fasting sub-field
    is selected by "Fasting" and whose random sub-field by "Random", the
    fasting sub-field is assigned "Random". *)
Theorem fasting_glucose_takes_random_state :
  on_state_of Demo.config "glucose_test_fasting" = Ok "Fasting"
  /\ on_state_of Demo.config "glucose_test_random" = Ok "Random"
  /\ getFieldMatch "fasting glucose" Demo.config Demo.basic_info
     = Ok (Some {[ Demo.xref "glucose" := "Yes";
                   Demo.xref "glucose_test_fasting" := "Random" ]}).
Proof. repeat split; vm_compute; reflexivity. Qed.

(** ** The wound arm *)

Lemma append_nil_r s : s +:+ "" = s.
Proof. induction s as [|c s IH]; [reflexivity|]. by rewrite append_cons, IH. Qed.

Lemma append_assoc a b c : (a +:+ b) +:+ c = a +:+ (b +:+ c).
Proof. induction a as [|x a IH]; [reflexivity|]. by rewrite !append_cons, IH. Qed.

Lemma split_go_nonempty sep skip cur s : split_go sep skip cur s <> [].
Proof.
  revert skip cur. induction s as [|c s IH]; intros skip cur; cbn [split_go]; [done|].
  destruct skip; [|apply IH]. destruct (String.prefix sep (String c s)); [done | apply IH].
Qed.

Lemma pieces_fold (l : list string) (acc : string) :
  fold_left (fun specificWound word => specificWound +:+ strip word +:+ " ") l acc
  = acc +:+ fold_right (fun word rest => strip word +:+ " " +:+ rest) "" l.
Proof.
  revert acc. induction l as [|w l IH]; intros acc; cbn [fold_left fold_right].
  - by rewrite append_nil_r.
  - by rewrite IH, !append_assoc.
Qed.

Lemma pieces_join (l : list string) :
  l <> [] ->
  fold_right (fun word rest => strip word +:+ " " +:+ rest) "" l
  = join " " (map strip l) +:+ " ".
Proof.
  induction l as [|w l IH]; [done|]. intros _. cbn [fold_right map join].
  destruct l as [|w' l]; [reflexivity|].
  rewrite IH by done. cbn [map]. by rewrite !append_assoc.
Qed.

(** The value written to the specify-wound field: the stripped pieces
    joined by single spaces, and one more space. *)
Lemma specific_wound_join text :
  specific_wound text = join " " (map strip (split text "wound")) +:+ " ".
Proof.
  unfold specific_wound. rewrite pieces_fold. cbn ["+:+"].
  apply pieces_join, split_go_nonempty.
Qed.

(** C3, as stated, fails: on "wound on left forearm" the specify field
    holds the text with a space on either side. *)
Lemma wound_specify_not_trimmed :
  getFieldMatch "wound on left forearm" Demo.config Demo.basic_info
  = Ok (Some {[ Demo.xref "wound" := "Yes";
                Demo.xref "specify_wound" := " on left forearm " ]})
  /\ getFieldMatch "wound on left forearm" Demo.config Demo.basic_info
     <> Ok (Some {[ Demo.xref "wound" := "Yes";
                    Demo.xref "specify_wound" := "on left forearm" ]}).
Proof. split; [vm_compute; reflexivity | vm_compute; discriminate]. Qed.

(** C3, amended: a line with "wound" that no earlier arm takes gets the
    wound field and a specify field holding the pieces between the
    occurrences of "wound", each stripped, joined by single spaces and
    followed by one space. *)
Theorem wound_rule
    {K : Type} `{Countable K} (line : string) (config : Config K)
    (basicInfo : gmap K string) (wound specify : FieldSpec K) (state : string) :
  cfg_fields config !! "wound" = Some wound ->
  on_state wound = Some state ->
  cfg_fields config !! "specify_wound" = Some specify ->
  (let text := strip (lower line) in
   contains "wound" text ->
   Forall (fun r => guard r text = false) (before Wound) ->
   getFieldMatch line config basicInfo
   = Ok (Some (<[ field_xref specify :=
                    join " " (map strip (split text "wound")) +:+ " " ]>
                 {[ field_xref wound := state ]})))
  /\ getFieldMatch "wound on left forearm" config basicInfo
     = Ok (Some (<[ field_xref specify := " on left forearm " ]>
                   {[ field_xref wound := state ]})).
Proof.
  intros Hw Hon Hs.
  assert (Harm : forall l, fired (normalize l) = Some Wound ->
            getFieldMatch l config basicInfo
            = Ok (Some (<[ field_xref specify :=
                             join " " (map strip (split (normalize l) "wound")) +:+ " " ]>
                          {[ field_xref wound := state ]}))).
  { intros l Hl. rewrite (fired_emit _ _ _ _ Hl). cbn [emit].
    rewrite (mark_ok _ _ _ _ _ Hw Hon). cbn.
    rewrite (xref_of_ok _ _ _ Hs). cbn. by rewrite specific_wound_join. }
  split.
  - intros text Hhas Hbefore. apply Harm, fired_iff. split; [|done].
    cbn [guard]. by apply has_contains.
  - rewrite Harm by (vm_compute; reflexivity). reflexivity.
Qed.

Lemma wound_rule_witness :
  (cfg_fields Demo.config !! "wound"
     = Some {| field_xref := 132; on_state := Some "Yes" |}
   /\ on_state {| field_xref := 132; on_state := Some "Yes" |} = Some "Yes"
   /\ cfg_fields Demo.config !! "specify_wound"
      = Some {| field_xref := 205; on_state := None |}
   /\ contains "wound" (strip (lower " Wound, right knee "))
   /\ Forall (fun r => guard r (strip (lower " Wound, right knee ")) = false)
        (before Wound))
  /\ getFieldMatch " Wound, right knee " Demo.config Demo.basic_info
     = Ok (Some {[ 132 := "Yes"; 205 := " , right knee " ]}).
Proof.
  assert (Hw : cfg_fields Demo.config !! "wound"
               = Some {| field_xref := 132; on_state := Some "Yes" |})
    by (vm_compute; reflexivity).
  assert (Hs : cfg_fields Demo.config !! "specify_wound"
               = Some {| field_xref := 205; on_state := None |})
    by (vm_compute; reflexivity).
  assert (Hc : contains "wound" (strip (lower " Wound, right knee ")))
    by (apply has_contains; vm_compute; reflexivity).
  assert (Hb : Forall (fun r => guard r (strip (lower " Wound, right knee ")) = false)
                 (before Wound))
    by (apply (bool_decide_unpack _); vm_compute; exact I).
  split; [repeat split; assumption|].
  destruct (wound_rule " Wound, right knee " Demo.config Demo.basic_info
              _ _ "Yes" Hw eq_refl Hs) as [Harm _].
  rewrite (Harm Hc Hb). vm_compute. reflexivity.
Defined.

(** ** The loop over the lines and the overflow slots *)

Section Overflow.
Context {K : Type} `{Countable K}.
Variable config : Config K.
Variable basic_info : gmap K string.

Variable slot : Z -> K.

Local Abbreviation unclassified := (unclassified config basic_info).
Local Abbreviation classified_writes := (classified_writes config basic_info).
Local Abbreviation slot_writes := (slot_writes slot).
Local Abbreviation well_classified := (well_classified config basic_info slot).

Hypothesis slot_config : forall n, 1 <= n <= 11 ->
  xref_of config ("other_tests" +:+ str n) = Ok (slot n).
Hypothesis slot_inj : forall i j, 1 <= i <= 11 -> 1 <= j <= 11 ->
  slot i = slot j -> i = j.

Lemma slot_writes_below count lines n :
  1 <= n <= count -> count <= 11 -> slot_writes count lines !! slot n = None.
Proof.
  revert count. induction lines as [|line rest IH]; intros count Hn Hc;
    cbn [slot_writes]; [done|].
  unfold MAX_OTHER_TESTS. destruct (Z.ltb_spec count 11); [|done].
  rewrite lookup_insert_ne; [apply IH; lia|].
  intros Heq. apply slot_inj in Heq; lia.
Qed.

Lemma slot_writes_lookup count lines n :
  0 <= count < n -> n <= 11 ->
  slot_writes count lines !! slot n = lines !! Z.to_nat (n - count - 1).
Proof.
  revert count. induction lines as [|line rest IH]; intros count Hc Hn;
    cbn [slot_writes]; [done|].
  unfold MAX_OTHER_TESTS. destruct (Z.ltb_spec count 11); [|lia].
  destruct (decide (n = count + 1)) as [->|Hne].
  - rewrite lookup_insert_eq. by replace (count + 1 - count - 1) with 0 by lia.
  - rewrite lookup_insert_ne by (intros Heq; apply slot_inj in Heq; lia).
    rewrite IH by lia.
    replace (Z.to_nat (n - count - 1)) with (S (Z.to_nat (n - (count + 1) - 1))) by lia.
    done.
Qed.

Lemma slot_writes_size count lines :
  0 <= count <= 11 ->
  size (slot_writes count lines)
  = Z.to_nat (Z.min (11 - count) (Z.of_nat (length lines))).
Proof.
  revert count. induction lines as [|line rest IH]; intros count Hc;
    cbn [slot_writes length].
  - rewrite map_size_empty. lia.
  - unfold MAX_OTHER_TESTS. destruct (Z.ltb_spec count 11).
    + rewrite map_size_insert_None by (apply slot_writes_below; lia).
      rewrite IH by lia. lia.
    + rewrite map_size_empty. lia.
Qed.

Lemma classified_writes_slot texts n :
  Forall well_classified texts -> 1 <= n <= 11 ->
  classified_writes texts !! slot n = None.
Proof.
  intros Hall Hn. induction Hall as [|text rest (entry & Hentry & Hfree) _ IH];
    cbn [classified_writes]; [done|].
  apply lookup_union_None. split; [exact IH|].
  rewrite Hentry. destruct (truthy entry); [by apply Hfree | done].
Qed.

(** The state after the loop, from any state it can start in. *)
Lemma classify_lines_exact texts entries count :
  0 <= count <= 11 ->
  Forall well_classified texts ->
  classify_lines config basic_info (entries, count) (PStr <$> texts)
  = Ok (slot_writes count (List.filter unclassified texts)
          ∪ classified_writes texts ∪ entries,
        Z.min 11 (count + Z.of_nat (length (List.filter unclassified texts)))).
Proof.
  intros Hc Hall. revert entries count Hc.
  induction Hall as [|text rest (entry & Hentry & Hfree) Hrest IH];
    intros entries count Hc.
  - cbn. rewrite !(left_id_L ∅ (∪)). do 2 f_equal. lia.
  - assert (Hu : unclassified text = negb (truthy entry))
      by (unfold unclassified; by rewrite Hentry).
    cbn [fmap list_fmap classify_lines classify_line List.filter classified_writes].
    rewrite Hu, Hentry. cbn.
    destruct (truthy entry) eqn:Htruthy; cbn.
    + rewrite IH by done. f_equal. f_equal.
      by rewrite !(assoc_L (∪)).
    + unfold MAX_OTHER_TESTS. destruct (Z.ltb_spec count 11) as [Hlt|Hge].
      * rewrite slot_config by lia. cbn. rewrite IH by lia.
        rewrite (right_id_L ∅ (∪)). f_equal. f_equal; [|lia].
        rewrite <- !insert_union_l. symmetry. apply insert_union_r.
        apply lookup_union_None. split.
        -- apply slot_writes_below; lia.
        -- apply classified_writes_slot; [done | lia].
      * cbn. rewrite IH by lia. assert (count = 11) as -> by lia.
        rewrite (right_id_L ∅ (∪)). f_equal. f_equal; [|lia].
        f_equal. by destruct (List.filter unclassified rest).
Qed.
End Overflow.

Lemma filter_all {A : Type} (f : A -> bool) (l : list A) :
  Forall (fun x => f x = true) l -> List.filter f l = l.
Proof.
  induction 1 as [|x l Hx _ IH]; [done|]. cbn. by rewrite Hx, IH.
Qed.

Section Unclassified.
Context {K : Type} `{Countable K}.
Implicit Types (config : Config K) (basic_info entries : gmap K string).

Lemma classified_writes_none config basic_info texts :
  Forall (fun text => unclassified config basic_info text = true) texts ->
  classified_writes config basic_info texts = ∅.
Proof.
  induction 1 as [|text rest Hu _ IH]; [done|]. cbn [classified_writes].
  rewrite IH, (left_id_L ∅ (∪)). unfold unclassified in Hu.
  destruct (getFieldMatch text config basic_info) as [entry|]; [|done].
  by destruct (truthy entry).
Qed.

(** A line that no arm takes is unclassified, whatever the configuration. *)
Lemma unmatched_unclassified config basic_info line :
  fired (normalize line) = None -> unclassified config basic_info line = true.
Proof.
  intros Hnone. unfold unclassified. by rewrite getFieldMatch_fired, Hnone.
Qed.

(** What the loop does with an unclassified line. *)
Lemma classify_line_unclassified config basic_info entries count line :
  unclassified config basic_info line = true ->
  classify_line config basic_info (entries, count) (PStr line)
  = if count <? MAX_OTHER_TESTS
    then k ← xref_of config ("other_tests" +:+ str (count + 1));
         Ok (<[k := line]> entries, count + 1)
    else Ok (entries, count).
Proof.
  unfold unclassified, classify_line. intros Hu.
  destruct (getFieldMatch line config basic_info) as [entry|]; [|done].
  cbn. by destruct (truthy entry).
Qed.
End Unclassified.

(** C4: the unclassified lines of a request go to other_tests1 ...
    other_tests11 in arrival order, the first eleven of them; the loop
    ends without an exception and later unclassified lines are stored
    nowhere.  With twelve lines, all unclassified, eleven slots hold the
    first eleven and nothing else is stored. *)
Theorem overflow_slots_in_arrival_order
    {K : Type} `{Countable K} (config : Config K) (basic_info : gmap K string)
    (slot : Z -> K) (texts : list string) :
  (forall n, 1 <= n <= 11 ->
     xref_of config ("other_tests" +:+ str n) = Ok (slot n)) ->
  (forall i j, 1 <= i <= 11 -> 1 <= j <= 11 -> slot i = slot j -> i = j) ->
  Forall (well_classified config basic_info slot) texts ->
  let unmatched := List.filter (unclassified config basic_info) texts in
  exists entries count,
    classify_lines config basic_info (∅, 0) (PStr <$> texts) = Ok (entries, count)
    /\ count = Z.min 11 (Z.of_nat (length unmatched))
    /\ (forall n, 1 <= n <= 11 ->
          entries !! slot n = unmatched !! Z.to_nat (n - 1))
    /\ (Forall (fun text => unclassified config basic_info text = true) texts ->
        entries = slot_writes slot 0 texts
        /\ size entries = Z.to_nat count
        /\ (length texts = 12%nat -> count = 11 /\ size entries = 11%nat)).
Proof.
  intros Hslot Hinj Hall unmatched.
  eexists _, _. split; [|split; [|split]].
  - apply (classify_lines_exact config basic_info slot Hslot Hinj); [lia | done].
  - done.
  - intros n Hn. rewrite (right_id_L ∅ (∪)).
    rewrite lookup_union_l by (by apply classified_writes_slot).
    rewrite (slot_writes_lookup slot Hinj) by lia. f_equal. lia.
  - intros Hnone. subst unmatched.
    rewrite (filter_all _ _ Hnone), (classified_writes_none _ _ _ Hnone).
    rewrite !(right_id_L ∅ (∪)). split; [done|].
    rewrite (slot_writes_size slot Hinj) by lia.
    split; [lia|]. intros Hlen. rewrite Hlen. lia.
Qed.

Ltac slot_cases n Hn :=
  assert (n = 1 \/ n = 2 \/ n = 3 \/ n = 4 \/ n = 5 \/ n = 6 \/ n = 7
          \/ n = 8 \/ n = 9 \/ n = 10 \/ n = 11) as Hcases by lia;
  clear Hn; repeat (destruct Hcases as [->|Hcases]); [..|subst n].

Lemma demo_slots n :
  1 <= n <= 11 ->
  xref_of Demo.config ("other_tests" +:+ str n) = Ok (205 + n).
Proof. intros Hn. slot_cases n Hn; vm_compute; reflexivity. Defined.

Lemma demo_lines_well_classified :
  Forall (well_classified Demo.config Demo.basic_info (fun n => 205 + n)) Demo.lines.
Proof.
  unfold Demo.lines.
  repeat (apply Forall_cons; split;
          [eexists; split; [vm_compute; reflexivity|];
           intros n Hn; slot_cases n Hn; vm_compute; reflexivity|]).
  constructor.
Defined.

Lemma demo_slots_inj i j :
  1 <= i <= 11 -> 1 <= j <= 11 -> 205 + i = 205 + j -> i = j.
Proof. lia. Defined.

Lemma overflow_slots_in_arrival_order_witness :
  exists entries,
    classify_lines Demo.config Demo.basic_info (∅, 0) (PStr <$> Demo.lines)
    = Ok (entries, 11)
    /\ entries !! 206 = Some "Ferritin"
    /\ entries !! 216 = Some "ESR"
    /\ size entries = 12%nat.
Proof.
  destruct (overflow_slots_in_arrival_order Demo.config Demo.basic_info
              (fun n => 205 + n) Demo.lines demo_slots
              demo_slots_inj demo_lines_well_classified)
    as (entries & count & Hrun & Hcount & Hslots & _).
  exists entries. vm_compute in Hcount. subst count.
  split; [exact Hrun|].
  split; [apply (Hslots 1); lia|].
  split; [apply (Hslots 11); lia|].
  vm_compute in Hrun. injection Hrun as <-. vm_compute. reflexivity.
Defined.

(** ** Vitamin D without an insurance word *)

(** C9: a line that reaches the vitamin-D arm and has neither "insured"
    nor "uninsured" gets an empty dictionary, so the loop treats it as
    unclassified: it goes to the next overflow slot, or nowhere once the
    eleven slots are taken. *)
Theorem vitamin_d_without_insurance_is_unclassified
    {K : Type} `{Countable K} (line : string) (config : Config K)
    (basic_info : gmap K string) :
  let text := strip (lower line) in
  contains "vitamin" text \/ contains "hydroxy" text ->
  Forall (fun r => guard r text = false) (before VitaminD) ->
  ~ contains "insured" text ->
  ~ contains "uninsured" text ->
  getFieldMatch line config basic_info = Ok (Some ∅)
  /\ truthy (Some (∅ : gmap K string)) = false
  /\ forall entries count,
       classify_line config basic_info (entries, count) (PStr line)
       = if count <? 11
         then k ← xref_of config ("other_tests" +:+ str (count + 1));
              Ok (<[k := line]> entries, count + 1)
         else Ok (entries, count).
Proof.
  intros text Hword Hbefore Hins Hunins.
  assert (Hfired : fired (normalize line) = Some VitaminD).
  { apply fired_iff. split; [|done]. cbn [guard].
    apply orb_true_iff. by rewrite !has_contains. }
  assert (Hempty : getFieldMatch line config basic_info = Ok (Some ∅)).
  { rewrite (fired_emit _ _ _ _ Hfired). cbn [emit].
    apply lacks_contains in Hins, Hunins. rewrite lacks_negb_has in Hins, Hunins.
    apply negb_true_iff in Hins, Hunins. fold text (normalize line).
    unfold normalize. fold text. by rewrite Hins, Hunins. }
  split; [done|]. split; [done|].
  intros entries count. apply classify_line_unclassified.
  unfold unclassified. by rewrite Hempty.
Qed.

Lemma vitamin_d_without_insurance_is_unclassified_witness :
  ((contains "vitamin" (strip (lower " Vitamin D "))
    \/ contains "hydroxy" (strip (lower " Vitamin D ")))
   /\ Forall (fun r => guard r (strip (lower " Vitamin D ")) = false)
        (before VitaminD)
   /\ ~ contains "insured" (strip (lower " Vitamin D "))
   /\ ~ contains "uninsured" (strip (lower " Vitamin D ")))
  /\ getFieldMatch " Vitamin D " Demo.config Demo.basic_info = Ok (Some ∅)
  /\ classify_line Demo.config Demo.basic_info (∅, 0) (PStr " Vitamin D ")
     = Ok ({[ 206 := " Vitamin D " ]}, 1).
Proof.
  assert (Hw : contains "vitamin" (strip (lower " Vitamin D "))
               \/ contains "hydroxy" (strip (lower " Vitamin D ")))
    by (left; apply has_contains; vm_compute; reflexivity).
  assert (Hb : Forall (fun r => guard r (strip (lower " Vitamin D ")) = false)
                 (before VitaminD))
    by (apply (bool_decide_unpack _); vm_compute; exact I).
  assert (Hi : ~ contains "insured" (strip (lower " Vitamin D ")))
    by (apply lacks_contains; vm_compute; reflexivity).
  assert (Hu : ~ contains "uninsured" (strip (lower " Vitamin D ")))
    by (apply lacks_contains; vm_compute; reflexivity).
  split; [by repeat split|].
  destruct (vitamin_d_without_insurance_is_unclassified " Vitamin D "
              Demo.config Demo.basic_info Hw Hb Hi Hu) as (Hempty & _ & Hline).
  split; [exact Hempty|]. rewrite Hline. vm_compute. reflexivity.
Defined.

(** ** What an overflow slot holds *)

(** C10: a line that no arm takes is unclassified, and for an
    unclassified line the next free slot receives the line as it came,
    not its lowercased, stripped form. *)
Theorem overflow_slot_keeps_raw_line
    {K : Type} `{Countable K} (line : string) (config : Config K)
    (basic_info entries : gmap K string) (count : Z) (k : K) :
  (fired (strip (lower line)) = None \/ unclassified config basic_info line = true) ->
  count < MAX_OTHER_TESTS ->
  xref_of config ("other_tests" +:+ str (count + 1)) = Ok k ->
  classify_line config basic_info (entries, count) (PStr line)
  = Ok (<[k := line]> entries, count + 1)
  /\ (<[k := line]> entries) !! k = Some line.
Proof.
  intros Hline Hcount Hk.
  assert (Hu : unclassified config basic_info line = true)
    by (destruct Hline; [by apply unmatched_unclassified | done]).
  split; [|apply lookup_insert_eq].
  rewrite (classify_line_unclassified _ _ _ _ _ Hu).
  rewrite (proj2 (Z.ltb_lt _ _) Hcount), Hk. reflexivity.
Qed.

Lemma overflow_slot_keeps_raw_line_witness :
  (fired (strip (lower "  Ferritin  ")) = None
   /\ 0 < MAX_OTHER_TESTS
   /\ xref_of Demo.config ("other_tests" +:+ str (0 + 1)) = Ok 206)
  /\ classify_line Demo.config Demo.basic_info (∅, 0) (PStr "  Ferritin  ")
     = Ok ({[ 206 := "  Ferritin  " ]}, 1)
  /\ strip (lower "  Ferritin  ") = "ferritin".
Proof.
  assert (Hf : fired (strip (lower "  Ferritin  ")) = None)
    by (vm_compute; reflexivity).
  assert (Hc : 0 < MAX_OTHER_TESTS) by (unfold MAX_OTHER_TESTS; lia).
  assert (Hk : xref_of Demo.config ("other_tests" +:+ str (0 + 1)) = Ok 206)
    by (vm_compute; reflexivity).
  split; [by repeat split|]. split; [|vm_compute; reflexivity].
  destruct (overflow_slot_keeps_raw_line "  Ferritin  " Demo.config
              Demo.basic_info ∅ 0 206 (or_introl Hf) Hc Hk) as [Hstep _].
  rewrite Hstep. reflexivity.
Defined.

(** ** Province abbreviations *)

Lemma getProvAbbrv_two_letters province :
  String.length province = 2%nat -> getProvAbbrv province = province.
Proof. intros Hlen. unfold getProvAbbrv. by rewrite Hlen. Qed.

Lemma getProvAbbrv_standard_but_yukon province code :
  standard_code province = Some code -> province <> "Yukon" ->
  getProvAbbrv province = code.
Proof.
  unfold standard_code, getProvAbbrv. intros Hcode Hyukon.
  repeat match type of Hcode with
  | (if String.eqb ?p ?name then _ else _) = _ =>
      destruct (String.eqb_spec p name) as [->|?];
        [first [by injection Hcode as <- | done]|]
  end.
  done.
Qed.

Lemma getProvAbbrv_unknown province :
  String.length province <> 2%nat -> standard_code province = None ->
  getProvAbbrv province = "NA".
Proof.
  unfold standard_code, getProvAbbrv. intros Hlen Hcode.
  destruct (Nat.eqb_spec (String.length province) 2); [done|].
  repeat match type of Hcode with
  | (if String.eqb ?p ?name then _ else _) = _ =>
      destruct (String.eqb p name); [done|]
  end.
  done.
Qed.

(** C5: "Yukon" is abbreviated to "YK"; the standard code of Yukon is
    "YT". *)
Theorem getProvAbbrv_yukon :
  getProvAbbrv "Yukon" = "YK" /\ standard_code "Yukon" = Some "YT".
Proof. split; reflexivity. Qed.

(** ** Validation of the ids *)

Section Validation.
Context {K : Type} `{Countable K}.
Variable FIELD_CONFIG : Config K.
Variables valid_patients valid_doctors : list Z.
Variable getBasicInfo : Z -> Z -> gmap K string.
Variable fillPDF : gmap K string -> string.

Local Abbreviation receive :=
  (receive_text FIELD_CONFIG valid_patients valid_doctors getBasicInfo fillPDF).

(** An id on which [int] raises ValueError or TypeError: status 400, and
    nothing fetched or written. *)
Lemma receive_text_not_integer data :
  (py_int (default PNone (data !! "patient_id")) = Raise ValueError
   \/ py_int (default PNone (data !! "patient_id")) = Raise TypeError
   \/ (exists p, py_int (default PNone (data !! "patient_id")) = Ok p)
      /\ (py_int (default PNone (data !! "doctor_id")) = Raise ValueError
          \/ py_int (default PNone (data !! "doctor_id")) = Raise TypeError)) ->
  receive data
  = (JsonMessage "Error: Patient ID and Doctor ID must be integers" 400, []).
Proof.
  unfold receive_text.
  intros [Hp|[Hp|[[p Hp] [Hd|Hd]]]]; rewrite Hp; cbn; try rewrite Hd; reflexivity.
Qed.

(** Integer ids of which one is not a valid id: status 400 with a message
    for each invalid id, and nothing fetched or written. *)
Lemma receive_text_invalid_ids data p d :
  py_int (default PNone (data !! "patient_id")) = Ok p ->
  py_int (default PNone (data !! "doctor_id")) = Ok d ->
  p ∉ valid_patients \/ d ∉ valid_doctors ->
  receive data
  = (JsonMessage
       (join "; "
          ((if bool_decide (p ∈ valid_patients) then []
            else ["Invalid patient ID: " +:+ str p])
           ++ (if bool_decide (d ∈ valid_doctors) then []
               else ["Invalid doctor ID: " +:+ str d]))) 400, []).
Proof.
  unfold receive_text. intros -> -> Hbad. cbn. unfold handle, id_errors.
  destruct Hbad as [Hbad|Hbad]; rewrite (bool_decide_eq_false_2 _ Hbad);
    [|destruct (bool_decide (p ∈ valid_patients))]; reflexivity.
Qed.

(** C7: a patient id that is the float infinity makes [int] raise
    OverflowError, which the handler does not catch: the request ends in
    an unhandled exception, not in a 400 response. *)
Theorem receive_text_infinite_id :
  py_int (PFloat (S754_infinity false)) = Raise OverflowError
  /\ receive {[ "patient_id" := PFloat (S754_infinity false);
               "doctor_id" := PInt 1;
               "inputs" := PList [] ]}
     = (Unhandled OverflowError, []).
Proof. split; reflexivity. Qed.
End Validation.

(** ** Dates of birth *)








(** A field written on two digits, matched by its directive: the values
    of the field are run through one by one. *)
Tactic Notation "enumerate" constr(v) integer(n) :=
  let k := fresh "k" in
  let Hbound := fresh "Hbound" in
  rewrite <- (Z2Nat.id v) by lia;
  assert (Z.of_nat (Z.to_nat v) = v) as Hbound by lia;
  revert Hbound; generalize (Z.to_nat v); intros k;
  do n (destruct k as [|k];
        [first [intros; lia | intros _; eexists; reflexivity]|]);
  intros; lia.













